(** * departures.py: the BART departure fetcher

    A shallow embedding of [get_departures] (src/departures.py) and the
    properties of its return value and of its observable effects.

    Python values are modelled as far as a parsed JSON document needs them;
    exceptions are explicit ([result]); the network, standard output and
    standard error are threaded through a state ([M]). *)

From Stdlib Require Import ZArith List String Ascii Bool Lia.
From Stdlib Require Import Floats.SpecFloat.
From Stdlib Require Import DecimalString DecimalPos Sorted Permutation.
Import ListNotations.

Local Open Scope string_scope.
Local Open Scope Z_scope.

(* ===================================================================== *)
(** ** Python values *)
(* ===================================================================== *)

(** What [json.load] produces: [None], [bool], [int], [float], [str],
    [list] and [dict].  A [dict] keeps its insertion order and its keys are
    strings; it is an association list, looked up from the front.  A [str]
    is a [string] whose characters stand for the code points U+0000 to
    U+00FF.  A [float] is an IEEE-754 datum ([spec_float]).

    [JNull] is Python's [None]: the same object is the default of the
    [testcase] argument, so [testcase is None] is [is_None]. *)
#[warnings="-register-all"]
Inductive json : Type :=
| JNull
| JBool (b : bool)
| JInt (n : Z)
| JFloat (f : spec_float)
| JStr (s : string)
| JList (items : list json)
| JDict (fields : list (string * json)).

Definition is_None (v : json) : bool :=
  match v with JNull => true | _ => false end.

(** A subscript [k] of [v[k]]: the code uses string keys and the index 0. *)
Inductive subscript : Type :=
| KStr (s : string)
| KInt (i : Z).

(** The exceptions that the operations below raise.  [RequestException]
    is [requests.exceptions.RequestException] with its subclasses other
    than [HTTPError] (ConnectionError, Timeout, ...); [HTTPError] is the
    subclass raised by [raise_for_status]. *)
Inductive exn : Type :=
| KeyError (key : subscript)
| IndexError
| TypeError
| ValueError
| OverflowError
| RequestException (detail : string)
| HTTPError (status : Z) (url : string).

(** [isinstance(ex, requests.exceptions.RequestException)] *)
Definition is_RequestException (e : exn) : bool :=
  match e with
  | RequestException _ | HTTPError _ _ => true
  | _ => false
  end.

(** [isinstance(ex, ValueError)] *)
Definition is_ValueError (e : exn) : bool :=
  match e with ValueError => true | _ => false end.

Inductive result (A : Type) : Type :=
| Ok (a : A)
| Raise (e : exn).
Arguments Ok {A} a.
Arguments Raise {A} e.

Definition rbind {A B} (r : result A) (k : A -> result B) : result B :=
  match r with
  | Ok a => k a
  | Raise e => Raise e
  end.

(** [try: r  except <class>: h] on a pure computation *)
Definition rcatch {A} (r : result A) (cls : exn -> bool) (h : exn -> result A)
  : result A :=
  match r with
  | Ok a => Ok a
  | Raise e => if cls e then h e else Raise e
  end.

Declare Scope result_scope.
Delimit Scope result_scope with result.
Notation "x <- r ;; k" := (rbind r (fun x => k))
  (at level 61, r at next level, right associativity) : result_scope.

(* --------------------------------------------------------------------- *)
(** *** Subscription and iteration *)
(* --------------------------------------------------------------------- *)

Fixpoint lookup (k : string) (fields : list (string * json)) : option json :=
  match fields with
  | [] => None
  | (k', v) :: rest => if String.eqb k k' then Some v else lookup k rest
  end.

(** Python's index normalisation: a negative index counts from the end. *)
Definition norm_index (i : Z) (len : nat) : option nat :=
  let j := if i <? 0 then i + Z.of_nat len else i in
  if (0 <=? j) && (j <? Z.of_nat len) then Some (Z.to_nat j) else None.

(** [v[k]].  A [dict] is subscripted by key (a [dict] from JSON has string
    keys only), a [list] and a [str] by position; a string subscript on
    them, and any subscript on the other values, is a [TypeError]. *)
Definition getitem (v : json) (k : subscript) : result json :=
  match v, k with
  | JDict fields, KStr s =>
      match lookup s fields with
      | Some x => Ok x
      | None => Raise (KeyError k)
      end
  | JDict _, KInt _ => Raise (KeyError k)
  | JList items, KInt i =>
      match norm_index i (List.length items) with
      | Some j =>
          match nth_error items j with
          | Some x => Ok x
          | None => Raise IndexError
          end
      | None => Raise IndexError
      end
  | JStr s, KInt i =>
      match norm_index i (String.length s) with
      | Some j =>
          match String.get j s with
          | Some c => Ok (JStr (String c EmptyString))
          | None => Raise IndexError
          end
      | None => Raise IndexError
      end
  | _, _ => Raise TypeError
  end.

(** [iter(v)], run to the end: the elements of a [list], the characters of
    a [str], the keys of a [dict]; anything else is not iterable. *)
Definition py_iter (v : json) : result (list json) :=
  match v with
  | JList items => Ok items
  | JStr s => Ok (map (fun c => JStr (String c EmptyString)) (list_ascii_of_string s))
  | JDict fields => Ok (map (fun kv => JStr (fst kv)) fields)
  | _ => Raise TypeError
  end.

(* --------------------------------------------------------------------- *)
(** *** [int(x)] *)
(* --------------------------------------------------------------------- *)

Definition code (c : ascii) : Z := Z.of_N (N_of_ascii c).

(** [Py_ISSPACE]: space, \t, \n, \v, \f, \r. *)
Definition Py_ISSPACE (c : ascii) : bool :=
  ((9 <=? code c) && (code c <=? 13)) || (code c =? 32).

(** [Py_UNICODE_ISSPACE] above U+007F, within U+0080..U+00FF: NEL and NBSP. *)
Definition unicode_isspace (c : ascii) : bool :=
  (code c =? 133) || (code c =? 160).

Definition is_digit (c : ascii) : bool :=
  (48 <=? code c) && (code c <=? 57).

Definition digit_value (c : ascii) : Z := code c - 48.

Definition is_underscore (c : ascii) : bool := code c =? 95.

(** [_PyUnicode_TransformDecimalAndSpaceToASCII]: an ASCII string is taken
    as it is; otherwise a character below 127 is kept, a Unicode space
    becomes a blank, and the first other character (none is a decimal digit
    in this range) becomes '?' and ends the buffer. *)
Fixpoint transform (l : list ascii) : list ascii :=
  match l with
  | [] => []
  | c :: r =>
      if code c <? 127 then c :: transform r
      else if unicode_isspace c then " "%char :: transform r
      else ["?"%char]
  end.

Definition to_ascii_buffer (l : list ascii) : list ascii :=
  if forallb (fun c => code c <? 128) l then l else transform l.

Fixpoint skip_spaces (l : list ascii) : list ascii :=
  match l with
  | c :: r => if Py_ISSPACE c then skip_spaces r else l
  | [] => []
  end.

(** The digit scan of [PyLong_FromString]: digits and single underscores
    between them.  [prev] is the character before, [digits] the digits read
    so far, last first.  [None] when two underscores meet or one ends the
    run; otherwise the digits, first to last, and what follows them. *)
Fixpoint scan_digits (prev : ascii) (digits : list ascii) (l : list ascii)
  : option (list ascii * list ascii) :=
  match l with
  | c :: r =>
      if is_digit c then scan_digits c (c :: digits) r
      else if is_underscore c then
        if is_underscore prev then None else scan_digits c digits r
      else if is_underscore prev then None else Some (rev digits, l)
  | [] => if is_underscore prev then None else Some (rev digits, l)
  end.

Definition decimal_value (digits : list ascii) : Z :=
  fold_left (fun acc c => 10 * acc + digit_value c) digits 0.

(** The guard on the length of a decimal string: with a limit [limit > 0]
    ([sys.get_int_max_str_digits()]; 0 is no limit, the only behaviour of
    interpreters older than the guard), more than 640 digits and more than
    [limit] digits are refused. *)
Definition too_many_digits (limit : nat) (ndigits : nat) : bool :=
  (640 <? ndigits)%nat && (0 <? limit)%nat && (limit <? ndigits)%nat.

(** The optional sign of [PyLong_FromString]: whether it is a minus, and
    what follows it. *)
Definition parse_sign (l : list ascii) : bool * list ascii :=
  match l with
  | c :: r => if code c =? 43 then (false, r)
              else if code c =? 45 then (true, r)
              else (false, l)
  | [] => (false, l)
  end.

(** The digits of [PyLong_FromString] and what may follow them: no leading
    underscore, one digit at least, no more digits than the interpreter
    accepts, then blanks up to the end of the buffer. *)
Definition parse_magnitude (limit : nat) (l : list ascii) : result Z :=
  match l with
  | c :: _ =>
      if is_underscore c then Raise ValueError else
      match scan_digits "000"%char [] l with
      | None => Raise ValueError
      | Some (digits, rest) =>
          match digits with
          | [] => Raise ValueError
          | _ :: _ =>
              if too_many_digits limit (List.length digits)
              then Raise ValueError
              else
                match skip_spaces rest with
                | [] => Ok (decimal_value digits)
                | _ :: _ => Raise ValueError
                end
          end
      end
  | [] => Raise ValueError
  end.

(** [PyLong_FromString(buffer, base=10)] with the end-of-buffer check of
    [PyLong_FromUnicodeObject]: blanks, an optional sign, the digits,
    blanks, and nothing more.  (A NUL ends the C string early; the
    end-of-buffer check then fails, which is the [ValueError] that a
    character that is neither a blank nor a digit gives here.) *)
Definition parse_long (limit : nat) (buffer : list ascii) : result Z :=
  let '(negative, l) := parse_sign (skip_spaces buffer) in
  match parse_magnitude limit l with
  | Ok magnitude => Ok (if negative then - magnitude else magnitude)
  | Raise e => Raise e
  end.

(** [int(s)] for a [str]. *)
Definition int_of_str (limit : nat) (s : string) : result Z :=
  parse_long limit (to_ascii_buffer (list_ascii_of_string s)).

(** [int(f)] for a [float]: truncation towards zero; NaN is a
    [ValueError], an infinity an [OverflowError]. *)
Definition int_of_float (f : spec_float) : result Z :=
  match f with
  | S754_zero _ => Ok 0
  | S754_infinity _ => Raise OverflowError
  | S754_nan => Raise ValueError
  | S754_finite s m e =>
      let magnitude := Z.shiftl (Zpos m) e in
      Ok (if s then - magnitude else magnitude)
  end.

(** [int(v)] *)
Definition py_int (limit : nat) (v : json) : result Z :=
  match v with
  | JInt n => Ok n
  | JBool b => Ok (if b then 1 else 0)
  | JFloat f => int_of_float f
  | JStr s => int_of_str limit s
  | JNull | JList _ | JDict _ => Raise TypeError
  end.

(* ===================================================================== *)
(** ** The extraction loops *)
(* ===================================================================== *)

(** [for x in items: body], the loop state passed along; an exception of
    the body ends the loop. *)
Fixpoint for_loop {A S : Type} (items : list A) (body : A -> S -> result S)
  (s : S) : result S :=
  match items with
  | [] => Ok s
  | x :: rest =>
      match body x s with
      | Ok s' => for_loop rest body s'
      | Raise e => Raise e
      end
  end.

Section Extraction.

(** [sys.get_int_max_str_digits()] of the interpreter; 0 where there is
    no limit. *)
Variable int_max_str_digits : nat.

(** Lines 97-101:
<<
    try:
        m = int(depData['minutes'])
    except ValueError as ex:
        m = 0
>> *)
Definition entry_minutes (depData : json) : result Z :=
  rcatch (x <- getitem depData (KStr "minutes") ;;
          py_int int_max_str_digits x)%result
         is_ValueError
         (fun _ => Ok 0).

(** Lines 96-102: the inner loop, [minutesList.append(m)]. *)
Definition estimate_loop (dep : json) (minutesList : list Z)
  : result (list Z) :=
  (estimate <- getitem dep (KStr "estimate") ;;
   entries <- py_iter estimate ;;
   for_loop entries
     (fun depData minutesList =>
        m <- entry_minutes depData ;;
        Ok (minutesList ++ [m])%list)
     minutesList)%result.

(** Lines 89-93: the schema path, any exception giving the empty list. *)
Definition schema_path (resp : json) : result json :=
  (root <- getitem resp (KStr "root") ;;
   station <- getitem root (KStr "station") ;;
   first <- getitem station (KInt 0) ;;
   getitem first (KStr "etd"))%result.

Definition departure_list (resp : json) : json :=
  match schema_path resp with
  | Ok depList => depList
  | Raise _ => JList []
  end.

(** Lines 89-104, from the response document to the returned list. *)
Definition extract_minutes (resp : json) : result (list Z) :=
  let depList := departure_list resp in
  (deps <- py_iter depList ;;
   for_loop deps estimate_loop [])%result.

End Extraction.

(* ===================================================================== *)
(** ** The network and the output streams *)
(* ===================================================================== *)

(** What the code reads of a [requests.Response]: the status, [r.url] and
    the outcome of [r.json()]. *)
Record response : Type := {
  status_code : Z;
  url : string;
  json_body : result json
}.

(** [r.raise_for_status()] raises [HTTPError] on a 4xx or 5xx status. *)
Definition raise_for_status (r : response) : result unit :=
  if (400 <=? status_code r) && (status_code r <? 600)
  then Raise (HTTPError (status_code r) (url r))
  else Ok tt.

(** What [print] is given: a string, [json.dumps(doc, sort_keys=True,
    indent=4)] (recorded by its document), or an exception object. *)
Inductive printed : Type :=
| Text (s : string)
| Dump (doc : json)
| Exc (e : exn).

(** The observable actions, in the order they happen. *)
Inductive event : Type :=
| Get (target : string) (params : list (string * string))
| Stdout (p : printed)
| Stderr (p : printed).

(** [str(n)] for an [int], in decimal. *)
Definition str_of_Z (n : Z) : string := NilZero.string_of_int (Z.to_int n).

Definition digit_count (n : Z) : nat := String.length (str_of_Z (Z.abs n)).

(** The guard of the conversion of an [int] to a decimal string: with a
    limit [limit > 0] (0, or 640 at least, in an interpreter), a string of
    more than 640 characters with more than [limit] digits is refused. *)
Definition too_long_to_print (limit : nat) (n : Z) : bool :=
  let sign := if n <? 0 then 1%nat else 0%nat in
  (640 <? digit_count n + sign)%nat
  && (0 <? limit)%nat && (limit <? digit_count n)%nat.

(** [json.dumps(doc, sort_keys=True, indent=4)] writes every integer of
    the document in decimal, so it can be done when none is too long to
    convert; booleans, floats (NaN and the infinities too), strings and
    null are always written. *)
Fixpoint dumpable (limit : nat) (doc : json) : bool :=
  match doc with
  | JInt n => negb (too_long_to_print limit n)
  | JList items => forallb (dumpable limit) items
  | JDict fields => forallb (fun kv => dumpable limit (snd kv)) fields
  | _ => true
  end.

(** [json.dumps(doc, sort_keys=True, indent=4)]: the text, recorded by its
    document, or the [ValueError] of an integer too long to convert. *)
Definition json_dumps (limit : nat) (doc : json) : result printed :=
  if dumpable limit doc then Ok (Dump doc) else Raise ValueError.

Definition is_Get (ev : event) : bool :=
  match ev with Get _ _ => true | _ => false end.

Definition bartURL : string := "http://api.bart.gov/api/etd.aspx".

Section Fetcher.

(** The network: its state, and what [requests.get(url, params=...)]
    answers in a state (a response, or an exception) and leaves behind. *)
Variable World : Type.
Variable requests_get :
  string -> list (string * string) -> World -> result response * World.
Variable int_max_str_digits : nat.

Record state : Type := {
  network : World;
  trace : list event   (* oldest first *)
}.

Definition M (A : Type) : Type := state -> result A * state.

Definition ret {A} (a : A) : M A := fun st => (Ok a, st).

Definition bind {A B} (m : M A) (k : A -> M B) : M B :=
  fun st =>
    match m st with
    | (Ok a, st') => k a st'
    | (Raise e, st') => (Raise e, st')
    end.

Definition lift {A} (r : result A) : M A := fun st => (r, st).

Definition emit (ev : event) : M unit :=
  fun st => (Ok tt, {| network := network st; trace := (trace st ++ [ev])%list |}).

Definition when (b : bool) (m : M unit) : M unit :=
  if b then m else ret tt.

(** [try: m  except <class> as ex: h ex] *)
Definition try_except {A} (m : M A) (cls : exn -> bool) (h : exn -> M A)
  : M A :=
  fun st =>
    match m st with
    | (Ok a, st') => (Ok a, st')
    | (Raise e, st') => if cls e then h e st' else (Raise e, st')
    end.

Notation "x <- m ;; k" := (bind m (fun x => k))
  (at level 61, m at next level, right associativity).
Notation "m ;; k" := (bind m (fun _ => k))
  (at level 61, right associativity).

(** [requests.get(url, params=params)] *)
Definition http_get (target : string) (params : list (string * string))
  : M response :=
  fun st =>
    let '(r, w) := requests_get target params (network st) in
    (r, {| network := w; trace := (trace st ++ [Get target params])%list |}).

(** Lines 63-69 *)
Definition reqParams (origin direction : string) : list (string * string) :=
  [ ("cmd", "etd");
    ("orig", origin);
    ("dir", direction);
    ("key", "MW9S-E7SL-26DU-VV8V");
    ("json", "y") ].

(** Lines 61-82: the response document, from the network or the test
    case. *)
Definition obtain_response (origin direction : string) (testcase : json)
  (verbose : bool) : M json :=
  if is_None testcase then
    r <- http_get bartURL (reqParams origin direction) ;;
    lift (raise_for_status r) ;;
    when verbose (emit (Stdout (Text (url r)))) ;;
    lift (json_body r)
  else
    ret testcase.

(** Line 85: [print(json.dumps(resp, sort_keys=True, indent=4))] *)
Definition print_dump (resp : json) : M unit :=
  text <- lift (json_dumps int_max_str_digits resp) ;;
  emit (Stdout text).

(** [get_departures(origin, direction, testcase, verbose)]: the list, or
    [None]. *)
Definition get_departures (origin direction : string) (testcase : json)
  (verbose : bool) : M (option (list Z)) :=
  try_except
    (resp <- obtain_response origin direction testcase verbose ;;
     when verbose (print_dump resp) ;;
     minutesList <- lift (extract_minutes int_max_str_digits resp) ;;
     ret (Some minutesList))
    is_RequestException
    (fun ex =>
       emit (Stderr (Text "[!] Error: could not complete the request.")) ;;
       emit (Stderr (Exc ex)) ;;
       ret None).

(** The value a call returns (or the exception it raises), in a state. *)
Definition returned (origin direction : string) (testcase : json)
  (verbose : bool) (st : state) : result (option (list Z)) :=
  fst (get_departures origin direction testcase verbose st).

(** The events a call adds to the trace. *)
Definition after (origin direction : string) (testcase : json)
  (verbose : bool) (st : state) : state :=
  snd (get_departures origin direction testcase verbose st).

End Fetcher.

Arguments network {World} s.
Arguments trace {World} s.
Arguments Build_state {World} network trace.
Arguments get_departures {World} requests_get int_max_str_digits
  origin direction testcase verbose _.
Arguments returned {World} requests_get int_max_str_digits
  origin direction testcase verbose st.
Arguments after {World} requests_get int_max_str_digits
  origin direction testcase verbose st.

(* ===================================================================== *)
(** ** The response schema, as the specification describes it *)
(* ===================================================================== *)

(** All the elements, when each is there. *)
Fixpoint all_some {A B : Type} (f : A -> option B) (l : list A)
  : option (list B) :=
  match l with
  | [] => Some []
  | x :: rest =>
      match f x, all_some f rest with
      | Some y, Some ys => Some (y :: ys)
      | _, _ => None
      end
  end.

(** An estimate entry: an object whose "minutes" field is a string. *)
Definition entry_minutes_field (entry : json) : option string :=
  match entry with
  | JDict fields =>
      match lookup "minutes" fields with
      | Some (JStr s) => Some s
      | _ => None
      end
  | _ => None
  end.

(** An estimate group: an object whose "estimate" field is a list of
    entries. *)
Definition group_minutes (group : json) : option (list string) :=
  match group with
  | JDict fields =>
      match lookup "estimate" fields with
      | Some (JList entries) => all_some entry_minutes_field entries
      | _ => None
      end
  | _ => None
  end.


(** A well-formed document: a root object, a list of one station object,
    its list of estimate groups.  The minutes strings of each group, in
    document order. *)
Definition document_minutes (doc : json) : option (list (list string)) :=
  match doc with
  | JDict top =>
      match lookup "root" top with
      | Some (JDict root) =>
          match lookup "station" root with
          | Some (JList [JDict station]) =>
              match lookup "etd" station with
              | Some (JList groups) => all_some group_minutes groups
              | _ => None
              end
          | _ => None
          end
      | _ => None
      end
  | _ => None
  end.

(** The integer a minutes string stands for in the output: what [int]
    makes of it, and 0 where [int] raises. *)
Definition minutes_value (limit : nat) (s : string) : Z :=
  match int_of_str limit s with
  | Ok n => n
  | Raise _ => 0
  end.





(** The shape of an integer literal.  After the first digit: digits, each
    with at most one underscore before it. *)
Inductive body_tail : list ascii -> Prop :=
| tail_end : body_tail []
| tail_digit d run :
    is_digit d = true -> body_tail run -> body_tail (d :: run)
| tail_underscore u d run :
    is_underscore u = true -> is_digit d = true -> body_tail run ->
    body_tail (u :: d :: run).

Definition is_sign (c : ascii) : bool := (code c =? 43) || (code c =? 45).

(** A blank of a string: an ASCII blank, NEL or NBSP. *)
Definition blank_char (c : ascii) : bool := Py_ISSPACE c || unicode_isspace c.

(** Blanks, at most one sign, a digit and its tail, blanks. *)
Definition literal_shape (blank : ascii -> bool) (l : list ascii) : Prop :=
  exists blanks1 sign d run blanks2,
    l = (blanks1 ++ sign ++ d :: run ++ blanks2)%list
    /\ forallb blank blanks1 = true
    /\ forallb is_sign sign = true /\ (List.length sign <= 1)%nat
    /\ is_digit d = true /\ body_tail run
    /\ forallb blank blanks2 = true.

Definition integer_literal (s : string) : Prop :=
  literal_shape blank_char (list_ascii_of_string s).


(** The fixture of the specification: two destination groups, with
    minutes ["3", "7"] and ["Leaving"]. *)
Definition estimate_entry (minutes : string) : json :=
  JDict [("minutes", JStr minutes)].

Definition estimate_group (minutes : list string) : json :=
  JDict [("estimate", JList (map estimate_entry minutes))].

Definition fixture_of (groups : list (list string)) : json :=
  JDict [("root",
          JDict [("station",
                  JList [JDict [("etd", JList (map estimate_group groups))]])])].

Definition two_group_fixture : json := fixture_of [["3"; "7"]; ["Leaving"]].


(** The exceptions of subscription, iteration and [int]: none is a
    transport exception. *)
Definition local_exn (e : exn) : Prop :=
  match e with
  | KeyError _ | IndexError | TypeError | ValueError | OverflowError => True
  | RequestException _ | HTTPError _ _ => False
  end.


(** *** Shapes that the loops can walk *)





(** *** The observable side *)

Definition is_Stdout (ev : event) : bool :=
  match ev with Stdout _ => true | _ => false end.

(** The request the code sends, written out. *)
Definition etd_request (origin direction : string) : event :=
  Get "http://api.bart.gov/api/etd.aspx"
      [ ("cmd", "etd"); ("orig", origin); ("dir", direction);
        ("key", "MW9S-E7SL-26DU-VV8V"); ("json", "y") ].

(** A transport-level failure of the request in a network state: the
    call itself raises a transport exception (no connection, a timeout),
    or it answers with an error status, which [raise_for_status] turns
    into an [HTTPError]. *)
Inductive transport_failure : result response -> exn -> Prop :=
| request_raises e :
    is_RequestException e = true ->
    transport_failure (Raise e) e
| error_status r :
    400 <= status_code r < 600 ->
    transport_failure (Ok r) (HTTPError (status_code r) (url r)).




(** *** Concrete inputs *)

(** A network that refuses every connection, one that answers 404, and a
    state with nothing printed yet. *)
Definition offline (target : string) (params : list (string * string))
  (w : unit) : result response * unit :=
  (Raise (RequestException "connection refused"), w).

Definition not_found (target : string) (params : list (string * string))
  (w : unit) : result response * unit :=
  (Ok {| status_code := 404; url := target; json_body := Raise ValueError |}, w).

Definition initial : state unit := {| network := tt; trace := [] |}.

(** A network that answers 304 Not Modified, with a document for body. *)
Definition not_modified (target : string) (params : list (string * string))
  (w : unit) : result response * unit :=
  (Ok {| status_code := 304; url := target;
         json_body := Ok (JDict [("root",
                          JDict [("station",
                                  JList [JDict [("etd",
                                    JList [JDict [("estimate",
                                      JList [JDict [("minutes", JStr "3")];
                                             JDict [("minutes", JStr "7")]])];
                                           JDict [("estimate",
                                      JList [JDict [("minutes", JStr "Leaving")]])]])]])])]) |},
   w).




(** Documents off the schema: a group without "estimate", an entry without
    "minutes", a null "minutes". *)
Definition station_with (groups : list json) : json :=
  JDict [("root", JDict [("station", JList [JDict [("etd", JList groups)]])])].

Definition group_without_estimate : json :=
  station_with [JDict [("destination", JStr "Richmond")]].

Definition entry_without_minutes : json :=
  station_with [JDict [("estimate", JList [JDict [("platform", JStr "2")]])]].

Definition null_minutes : json :=
  station_with [JDict [("estimate", JList [JDict [("minutes", JNull)]])]].

(** Unfold a call down to the network answer and the extraction. *)
Ltac unfold_fetch :=
  unfold get_departures, obtain_response, print_dump, json_dumps, http_get,
    try_except, when, emit, lift, ret, bind.

(* ===================================================================== *)
(** ** The script: [do_tests] and the main block *)
(* ===================================================================== *)

(** *** [print] of the result *)

Definition printable (limit : nat) (l : list Z) : bool :=
  forallb (fun n => negb (too_long_to_print limit n)) l.

(** The elements of a list display, separated by a comma and a blank. *)
Fixpoint join_items (l : list Z) : string :=
  match l with
  | [] => ""
  | [n] => str_of_Z n
  | n :: rest => str_of_Z n ++ ", " ++ join_items rest
  end.

(** [str(l)] for a list of [int]. *)
Definition str_of_list (l : list Z) : string := "[" ++ join_items l ++ "]".

(** [str(v)] for what [get_departures] returns; an [int] too long to
    convert is a [ValueError]. *)
Definition py_str (limit : nat) (v : option (list Z)) : result string :=
  match v with
  | None => Ok "None"
  | Some l => if printable limit l then Ok (str_of_list l) else Raise ValueError
  end.

(** *** Files and failures *)

(** What ends the script: an exception of the fetcher or of [print], or
    one of [open] and [json.load], which the fetcher never raises. *)
Inductive failure : Type :=
| Raised (e : exn)
| OSError (detail : string)
| JSONDecodeError (detail : string).

Inductive outcome (A : Type) : Type :=
| Done (a : A)
| Failed (f : failure).
Arguments Done {A} a.
Arguments Failed {A} f.

(** [sorted] on strings: ascending in the order of the code points. *)
Fixpoint insert_sorted (x : string) (l : list string) : list string :=
  match l with
  | [] => [x]
  | y :: rest =>
      if String.leb x y then x :: l else y :: insert_sorted x rest
  end.

Definition sorted (l : list string) : list string :=
  fold_right insert_sorted [] l.

Section Script.

(** The network, as for the fetcher. *)
Variable World : Type.
Variable requests_get :
  string -> list (string * string) -> World -> result response * World.
Variable int_max_str_digits : nat.

(** The directory: what [glob.glob(pattern)] lists, in the order of the
    listing, and for a path what [open] gives: a failure, or a file, which
    is what [json.load] makes of it (a failure, or the document). *)
Variable glob_glob : string -> list string.
Variable open_file : string -> outcome (outcome json).

Definition Script (A : Type) : Type := state World -> outcome A * state World.

Definition sret {A} (a : A) : Script A := fun st => (Done a, st).

Definition sbind {A B} (m : Script A) (k : A -> Script B) : Script B :=
  fun st =>
    match m st with
    | (Done a, st') => k a st'
    | (Failed f, st') => (Failed f, st')
    end.

(** A step that returns or fails without an effect. *)
Definition step {A} (o : outcome A) : Script A := fun st => (o, st).

(** A call of the fetcher: its exception ends the script. *)
Definition call {A} (m : M World A) : Script A :=
  fun st =>
    match m st with
    | (Ok a, st') => (Done a, st')
    | (Raise e, st') => (Failed (Raised e), st')
    end.

(** [print(s)] for a string. *)
Definition print_line (s : string) : Script unit :=
  call (emit World (Stdout (Text s))).

(** [print(v)] for what [get_departures] returns. *)
Definition print_value (v : option (list Z)) : Script unit :=
  match py_str int_max_str_digits v with
  | Ok s => print_line s
  | Raise e => step (Failed (Raised e))
  end.

Notation "x <- m ;; k" := (sbind m (fun x => k))
  (at level 61, m at next level, right associativity).
Notation "m ;; k" := (sbind m (fun _ => k))
  (at level 61, right associativity).

(** Lines 117-121, the body of the loop of [do_tests]:
<<
    with open(fname) as ftest:
        print(fname)
        jsonobj = json.load(ftest)
        print(get_departures(origin='PLZA', testcase=jsonobj, verbose=False))
        print('-----')
>> *)
Definition run_test (fname : string) : Script unit :=
  ftest <- step (open_file fname) ;;
  print_line fname ;;
  jsonobj <- step ftest ;;
  v <- call (get_departures requests_get int_max_str_digits
               "PLZA" "s" jsonobj false) ;;
  print_value v ;;
  print_line "-----".

(** [for fname in test_files: ...] *)
Fixpoint run_tests (test_files : list string) : Script unit :=
  match test_files with
  | [] => sret tt
  | fname :: rest => run_test fname ;; run_tests rest
  end.

(** [do_tests()] *)
Definition do_tests : Script unit :=
  let test_files := sorted (glob_glob "./test*.json") in
  run_tests test_files.

(** Lines 124-140, the main block, for [sys.argv = argv].  The calls leave
    [direction], [testcase] and [verbose] to their defaults: 's', [None],
    [False]. *)
Definition main (argv : list string) : Script unit :=
  dep_list <-
    match argv with
    | _ :: org :: _ =>
        if String.eqb org "testing" then
          do_tests ;; sret None
        else
          call (get_departures requests_get int_max_str_digits
                  org "s" JNull false)
    | _ =>
        call (get_departures requests_get int_max_str_digits
                "PLZA" "s" JNull false)
    end ;;
  match dep_list with
  | Some _ => print_value dep_list
  | None => sret tt
  end.

End Script.

Arguments run_test {World} requests_get int_max_str_digits open_file fname _.
Arguments run_tests {World} requests_get int_max_str_digits open_file
  test_files _.
Arguments do_tests {World} requests_get int_max_str_digits glob_glob
  open_file _.
Arguments main {World} requests_get int_max_str_digits glob_glob open_file
  argv _.

(** *** What the loops visit, whatever the types *)







(** *** The script from outside *)

Definition is_Stderr (ev : event) : bool :=
  match ev with Stderr _ => true | _ => false end.

(** The two lines the handler of the transport exception [ex] prints. *)
Definition failure_report (ex : exn) : list event :=
  [ Stderr (Text "[!] Error: could not complete the request.");
    Stderr (Exc ex) ].

(** The origin the main block asks for. *)
Definition origin_of (argv : list string) : string :=
  match argv with
  | _ :: org :: _ => org
  | _ => "PLZA"
  end.

(** The three lines [do_tests] prints for a file with the minutes
    [minutes]. *)
Definition report (limit : nat) (fname : string) (minutes : list (list string))
  : list event :=
  [ Stdout (Text fname);
    Stdout (Text (str_of_list (map (minutes_value limit) (List.concat minutes))));
    Stdout (Text "-----") ].

(** Ascending order of strings. *)
Definition ascending (l : list string) : Prop :=
  StronglySorted (fun a b => String.leb a b = true) l.

(** An answer with a status that [raise_for_status] lets pass. *)
Definition passes (r : response) : bool :=
  negb ((400 <=? status_code r) && (status_code r <? 600)).

(** A network that answers every request with the same document. *)
Definition serving (doc : json) (target : string)
  (params : list (string * string)) (w : unit) : result response * unit :=
  (Ok {| status_code := 200; url := target; json_body := Ok doc |}, w).

(** A directory with two test files, listed out of order. *)
Definition two_tests (pattern : string) : list string :=
  ["./test2.json"; "./test1.json"].

Definition two_tests_files (fname : string) : outcome (outcome json) :=
  if String.eqb fname "./test1.json" then Done (Done two_group_fixture)
  else if String.eqb fname "./test2.json" then Done (Done (fixture_of [["12"]]))
  else Failed (OSError "No such file or directory").

Definition two_tests_minutes (fname : string) : list (list string) :=
  if String.eqb fname "./test1.json" then [["3"; "7"]; ["Leaving"]]
  else [["12"]].

(** A directory whose files all hold the document null. *)
Definition null_files (fname : string) : outcome (outcome json) :=
  Done (Done JNull).

(** The same directory with a second file that is not JSON. *)
Definition broken_files (fname : string) : outcome (outcome json) :=
  if String.eqb fname "./test1.json" then Done (Done two_group_fixture)
  else if String.eqb fname "./test2.json"
       then Done (Failed (JSONDecodeError "Expecting value"))
       else Failed (OSError "No such file or directory").



(* ===================================================================== *)
(** ** Checks of [int] *)
(* ===================================================================== *)

Example int_12 : int_of_str 4300 "12" = Ok 12. Proof. reflexivity. Qed.
Example int_neg5 : int_of_str 4300 "-5" = Ok (-5). Proof. reflexivity. Qed.
Example int_Leaving : int_of_str 4300 "Leaving" = Raise ValueError. Proof. reflexivity. Qed.
Example int_blank : int_of_str 0 " +1_000 " = Ok 1000. Proof. reflexivity. Qed.
Example int_us : int_of_str 0 "1__0" = Raise ValueError. Proof. reflexivity. Qed.
Example int_us2 : int_of_str 0 "10_" = Raise ValueError. Proof. reflexivity. Qed.
Example int_us3 : int_of_str 0 "_10" = Raise ValueError. Proof. reflexivity. Qed.
Example int_empty : int_of_str 0 "" = Raise ValueError. Proof. reflexivity. Qed.
Example int_sign : int_of_str 0 "-" = Raise ValueError. Proof. reflexivity. Qed.
Example int_float : int_of_float (S754_finite true 5 (-1)) = Ok (-2). Proof. reflexivity. Qed.

(* ===================================================================== *)
(** ** Lemmas on the extraction *)
(* ===================================================================== *)

Lemma for_loop_app {A S} (body : A -> S -> result S) (l1 l2 : list A) (s : S) :
  for_loop (l1 ++ l2) body s =
  match for_loop l1 body s with
  | Ok s' => for_loop l2 body s'
  | Raise e => Raise e
  end.
Proof.
  revert s. induction l1 as [|x l1 IH]; intros s; simpl.
  - reflexivity.
  - destruct (body x s); [apply IH | reflexivity].
Qed.

Lemma for_loop_raises {A S} (P : exn -> Prop) (body : A -> S -> result S) :
  (forall x s e, body x s = Raise e -> P e) ->
  forall l s e, for_loop l body s = Raise e -> P e.
Proof.
  intros Hbody l. induction l as [|x l IH]; intros s e; simpl.
  - discriminate.
  - destruct (body x s) as [s'|e'] eqn:E.
    + apply IH.
    + intros [= <-]. exact (Hbody _ _ _ E).
Qed.

Lemma local_exn_not_request e : local_exn e -> is_RequestException e = false.
Proof. destruct e; simpl; intros H; (reflexivity || contradiction). Qed.

Lemma getitem_raises v k e : getitem v k = Raise e -> local_exn e.
Proof.
  unfold getitem.
  repeat match goal with
         | |- context [match ?x with _ => _ end] => destruct x
         end; intros [= <-]; exact I.
Qed.

Lemma py_iter_raises v e : py_iter v = Raise e -> e = TypeError.
Proof. destruct v; simpl; intros [= <-]; reflexivity. Qed.

Lemma parse_magnitude_raises limit l e :
  parse_magnitude limit l = Raise e -> e = ValueError.
Proof.
  unfold parse_magnitude.
  repeat match goal with
         | |- context [match ?x with _ => _ end] => destruct x
         end; intros [= <-]; reflexivity.
Qed.

Lemma parse_long_raises limit buffer e :
  parse_long limit buffer = Raise e -> e = ValueError.
Proof.
  unfold parse_long. destruct (parse_sign (skip_spaces buffer)) as [neg l].
  destruct (parse_magnitude limit l) eqn:E; [discriminate|].
  intros [= <-]. exact (parse_magnitude_raises _ _ _ E).
Qed.

Lemma py_int_raises limit v e :
  py_int limit v = Raise e ->
  e = ValueError \/ e = TypeError \/ e = OverflowError.
Proof.
  destruct v as [| | |f| | |]; simpl; try (intros [= <-]; auto).
  - destruct f; simpl; intros [= <-]; auto.
  - intros H. left. exact (parse_long_raises _ _ _ H).
Qed.

Section ExtractionFacts.

Variable limit : nat.

Lemma entry_minutes_raises entry e :
  entry_minutes limit entry = Raise e -> local_exn e.
Proof.
  unfold entry_minutes.
  destruct (getitem entry (KStr "minutes")) as [x|e1] eqn:G; simpl.
  - destruct (py_int limit x) as [n|e2] eqn:I; simpl; [discriminate|].
    destruct (py_int_raises _ _ _ I) as [->|[->| ->]]; simpl;
      intros [= <-]; exact I0 || exact Logic.I.
  - pose proof (getitem_raises _ _ _ G) as L.
    destruct e1; simpl; try contradiction; intros [= <-]; exact Logic.I.
Qed.

Lemma estimate_loop_raises dep acc e :
  estimate_loop limit dep acc = Raise e -> local_exn e.
Proof.
  unfold estimate_loop.
  destruct (getitem dep (KStr "estimate")) as [est|e1] eqn:G; simpl.
  - destruct (py_iter est) as [entries|e2] eqn:It; simpl.
    + apply for_loop_raises. intros x s e'.
      destruct (entry_minutes limit x) as [m|e3] eqn:M; simpl; [discriminate|].
      intros [= <-]. exact (entry_minutes_raises _ _ M).
    + intros [= <-]. rewrite (py_iter_raises _ _ It). exact Logic.I.
  - intros [= <-]. exact (getitem_raises _ _ _ G).
Qed.

Lemma extract_minutes_raises resp e :
  extract_minutes limit resp = Raise e -> local_exn e.
Proof.
  unfold extract_minutes.
  destruct (py_iter (departure_list resp)) as [deps|e1] eqn:It; simpl.
  - apply for_loop_raises. intros x s e'. apply estimate_loop_raises.
  - intros [= <-]. rewrite (py_iter_raises _ _ It). exact Logic.I.
Qed.

(** An entry with a string for its minutes never raises. *)
Lemma entry_minutes_string entry s :
  entry_minutes_field entry = Some s ->
  entry_minutes limit entry = Ok (minutes_value limit s).
Proof.
  unfold entry_minutes_field, entry_minutes, minutes_value.
  destruct entry as [| | | | |?|fields]; try discriminate.
  simpl. destruct (lookup "minutes" fields) as [[]|]; try discriminate.
  intros [= ->]. simpl. destruct (int_of_str limit s) as [n|e] eqn:E.
  - reflexivity.
  - simpl. rewrite (parse_long_raises _ _ _ E). reflexivity.
Qed.

Lemma entries_loop entries strings acc :
  all_some entry_minutes_field entries = Some strings ->
  for_loop entries
    (fun depData minutesList =>
       rbind (entry_minutes limit depData)
             (fun m => Ok (minutesList ++ [m])%list))
    acc
  = Ok (acc ++ map (minutes_value limit) strings)%list.
Proof.
  revert strings acc.
  induction entries as [|entry entries IH]; intros strings acc; simpl.
  - intros [= <-]. simpl. now rewrite app_nil_r.
  - destruct (entry_minutes_field entry) as [s|] eqn:F; [|discriminate].
    destruct (all_some entry_minutes_field entries) as [ss|]; [|discriminate].
    intros [= <-]. rewrite (entry_minutes_string _ _ F). simpl.
    rewrite (IH ss _ eq_refl). now rewrite <- app_assoc.
Qed.

Lemma estimate_loop_group group strings acc :
  group_minutes group = Some strings ->
  estimate_loop limit group acc
  = Ok (acc ++ map (minutes_value limit) strings)%list.
Proof.
  unfold group_minutes, estimate_loop.
  destruct group as [| | | | |?|fields]; try discriminate. simpl.
  destruct (lookup "estimate" fields) as [[| | | | |entries|]|];
    try discriminate.
  simpl. apply entries_loop.
Qed.

Lemma groups_loop groups minutes acc :
  all_some group_minutes groups = Some minutes ->
  for_loop groups (estimate_loop limit) acc
  = Ok (acc ++ map (minutes_value limit) (List.concat minutes))%list.
Proof.
  revert minutes acc.
  induction groups as [|group groups IH]; intros minutes acc; simpl.
  - intros [= <-]. simpl. now rewrite app_nil_r.
  - destruct (group_minutes group) as [ss|] eqn:G; [|discriminate].
    destruct (all_some group_minutes groups) as [rest|]; [|discriminate].
    intros [= <-]. rewrite (estimate_loop_group _ _ _ G).
    rewrite (IH rest _ eq_refl). simpl.
    now rewrite map_app, app_assoc.
Qed.

(** On a well-formed document the extraction is the flattening of the
    groups. *)
Lemma extract_minutes_well_formed doc minutes :
  document_minutes doc = Some minutes ->
  extract_minutes limit doc
  = Ok (map (minutes_value limit) (List.concat minutes)).
Proof.
  unfold document_minutes, extract_minutes, departure_list, schema_path.
  destruct doc as [| | | | |?|top]; try discriminate. simpl.
  destruct (lookup "root" top) as [[| | | | |?|root]|]; try discriminate.
  simpl.
  destruct (lookup "station" root) as [[| | | | |stations|]|];
    try discriminate.
  destruct stations as [|[| | | | |?|station] [|? ?]]; try discriminate.
  simpl.
  destruct (lookup "etd" station) as [[| | | | |groups|]|]; try discriminate.
  simpl. intros H. now rewrite (groups_loop _ _ [] H).
Qed.

End ExtractionFacts.

(* ===================================================================== *)
(** ** Lemmas on [int] of a string *)
(* ===================================================================== *)











(** *** What [int] accepts is made of literal characters *)










(** *** What [int] accepts has the shape of a literal *)















(** Strings that are no literal: the empty string, a sign alone, a
    doubled underscore. *)
Example empty_not_literal : ~ integer_literal "".
Proof.
  intros (b1 & sg & d & run & b2 & E & _).
  cbn in E. destruct b1, sg; discriminate.
Qed.

Example sign_not_literal : ~ integer_literal "-".
Proof.
  intros (b1 & sg & d & run & b2 & E & Hb1 & Hsg & Hlen & Hd & Hrun & Hb2).
  cbn in E. destruct b1 as [|x b1]; cbn in E.
  - destruct sg as [|y sg]; cbn in E.
    + injection E as <- _. discriminate Hd.
    + injection E as <- E. destruct sg; discriminate.
  - injection E as <- E. destruct b1, sg; discriminate.
Qed.

Example doubled_underscore_not_literal : ~ integer_literal "1__2".
Proof.
  intros (b1 & sg & d & run & b2 & E & Hb1 & Hsg & Hlen & Hd & Hrun & Hb2).
  cbn in E. destruct b1 as [|x b1]; cbn in E.
  - destruct sg as [|y sg]; cbn in E.
    + injection E as <- E.
      inversion Hrun as [Er|d' run' Hd' Hrun' Er|u d' run' Hu Hd' Hrun' Er];
        subst; cbn in E.
      * subst b2. discriminate Hb2.
      * injection E as <- _. discriminate Hd'.
      * injection E as _ <- _. discriminate Hd'.
    + injection E as <- _. discriminate Hsg.
  - injection E as <- _. discriminate Hb1.
Qed.




(* ===================================================================== *)
(** ** Lemmas on the schema path *)
(* ===================================================================== *)



Section ShapeFacts.

Variable limit : nat.





End ShapeFacts.


(* ===================================================================== *)
(** ** Properties of [get_departures] *)
(* ===================================================================== *)

Section Properties.

Context {World : Type}.
Variable requests_get :
  string -> list (string * string) -> World -> result response * World.
Variable limit : nat.

(** With a test case the call is the dump, when asked for, and the
    extraction. *)
Lemma get_departures_fixture origin direction doc verbose (st : state World) :
  is_None doc = false ->
  get_departures requests_get limit origin direction doc verbose st
  = if verbose && negb (dumpable limit doc)
    then (Raise ValueError, st)
    else (match extract_minutes limit doc with
          | Ok minutesList => Ok (Some minutesList)
          | Raise e => Raise e
          end,
          {| network := network st;
             trace := if verbose then (trace st ++ [Stdout (Dump doc)])%list
                      else trace st |}).
Proof.
  intros Hdoc. destruct st as [w t].
  unfold_fetch. rewrite Hdoc.
  destruct verbose; [destruct (dumpable limit doc)|]; simpl;
    try reflexivity;
    (destruct (extract_minutes limit doc) as [l|e] eqn:E; simpl;
     [ reflexivity
     | now rewrite (local_exn_not_request _ (extract_minutes_raises _ _ _ E)) ]).
Qed.



Lemma value_of_fixture_any origin direction doc verbose (st : state World) :
  is_None doc = false ->
  returned requests_get limit origin direction doc verbose st
  = if verbose && negb (dumpable limit doc)
    then Raise ValueError
    else match extract_minutes limit doc with
         | Ok minutesList => Ok (Some minutesList)
         | Raise e => Raise e
         end.
Proof.
  intros H. unfold returned. rewrite get_departures_fixture by exact H.
  now destruct (verbose && negb (dumpable limit doc)).
Qed.

Lemma well_formed_supplied doc minutes :
  document_minutes doc = Some minutes -> is_None doc = false.
Proof. destruct doc; simpl; (discriminate || reflexivity). Qed.






(** C3, for the failures the code treats as such.  When the request fails
    at the transport level (the call raises a transport exception, or the
    answer has an error status, 4xx or 5xx), [get_departures] without a
    test case catches it, prints the message and the exception on the
    error stream, and returns [None]. *)
Theorem get_departures_transport_failure
  origin direction verbose st answer w ex :
  requests_get bartURL (reqParams origin direction) (network st)
  = (answer, w) ->
  transport_failure answer ex ->
  get_departures requests_get limit origin direction JNull verbose st
  = (Ok None,
     {| network := w;
        trace := (trace st ++
                  [ etd_request origin direction;
                    Stderr (Text "[!] Error: could not complete the request.");
                    Stderr (Exc ex) ])%list |}).
Proof.
  intros Hnet Hfail.
  unfold_fetch. cbn [is_None]. rewrite Hnet.
  inversion Hfail as [e He|r Hr]; subst.
  - cbn. rewrite He. cbn. now rewrite <- !app_assoc.
  - unfold raise_for_status.
    replace ((400 <=? status_code r) && (status_code r <? 600)) with true
      by (symmetry; apply andb_true_iff; split;
          [apply Z.leb_le | apply Z.ltb_lt]; lia).
    cbn. now rewrite <- !app_assoc.
Qed.

(** C6.  Without a test case, [get_departures] sends one GET request, to
    the endpoint, with the parameters cmd=etd, orig=origin,
    dir=direction, key=the fixed key, json=y. *)
Theorem get_departures_request_params origin direction verbose st :
  filter is_Get
    (trace (after requests_get limit origin direction JNull verbose st))
  = (filter is_Get (trace st) ++
     [ Get "http://api.bart.gov/api/etd.aspx"
           [ ("cmd", "etd"); ("orig", origin); ("dir", direction);
             ("key", "MW9S-E7SL-26DU-VV8V"); ("json", "y") ] ])%list.
Proof.
  unfold after. unfold_fetch. cbn [is_None].
  destruct (requests_get bartURL (reqParams origin direction) (network st))
    as [[r|e] w]; cbn.
  - destruct (raise_for_status r) as [[]|e]; cbn.
    + destruct verbose; cbn;
        (destruct (json_body r) as [resp|e]; cbn;
         [ try (destruct (dumpable limit resp); cbn);
           try (destruct (extract_minutes limit resp) as [l|e]; cbn)
         | ]);
        try destruct (is_RequestException e); cbn;
        rewrite ?filter_app; cbn; now rewrite ?app_nil_r.
    + destruct (is_RequestException e); cbn;
        rewrite ?filter_app; cbn; now rewrite ?app_nil_r.
  - destruct (is_RequestException e); cbn;
      rewrite ?filter_app; cbn; now rewrite ?app_nil_r.
Qed.

(** C7.  Two calls in a row with the same test case (and the same other
    arguments) return the same value, whatever the state they start in;
    a call with a test case leaves the network as it was. *)
Theorem get_departures_fixture_idempotent origin direction verbose st doc :
  is_None doc = false ->
  let first := get_departures requests_get limit origin direction doc verbose st in
  let second :=
    get_departures requests_get limit origin direction doc verbose (snd first) in
  fst second = fst first
  /\ network (snd second) = network st
  /\ forall st',
      returned requests_get limit origin direction doc verbose st' = fst first.
Proof.
  intros Hdoc first second. subst first second.
  assert (V : forall st',
             fst (get_departures requests_get limit origin direction doc
                    verbose st')
             = if verbose && negb (dumpable limit doc)
               then Raise ValueError
               else match extract_minutes limit doc with
                    | Ok minutesList => Ok (Some minutesList)
                    | Raise e => Raise e
                    end)
    by (intros st'; now apply value_of_fixture_any).
  unfold returned. split; [|split].
  - now rewrite !V.
  - rewrite !get_departures_fixture by exact Hdoc.
    now destruct (verbose && negb (dumpable limit doc)).
  - intros st'. now rewrite !V.
Qed.


(** C9.  With a test case, a call that returns normally returns a list,
    never [None]; no request is sent, and an exception that leaves the
    call is not a transport exception. *)
Theorem get_departures_fixture_never_none origin direction verbose st doc :
  is_None doc = false ->
  (forall r,
      returned requests_get limit origin direction doc verbose st = Ok r ->
      exists minutesList, r = Some minutesList)
  /\ (forall e,
        returned requests_get limit origin direction doc verbose st = Raise e ->
        is_RequestException e = false)
  /\ filter is_Get
       (trace (after requests_get limit origin direction doc verbose st))
     = filter is_Get (trace st).
Proof.
  intros Hdoc. unfold returned, after.
  rewrite get_departures_fixture by exact Hdoc.
  destruct (verbose && negb (dumpable limit doc)) eqn:D; cbn [fst snd trace].
  - repeat split.
    + discriminate.
    + intros e [= <-]. reflexivity.
  - repeat split.
    + intros r. destruct (extract_minutes limit doc) as [l|e];
        [intros [= <-]; eauto | discriminate].
    + intros e. destruct (extract_minutes limit doc) as [l|e'] eqn:E;
        [discriminate|].
      intros [= <-].
      exact (local_exn_not_request _ (extract_minutes_raises _ _ _ E)).
    + destruct verbose; [|reflexivity].
      rewrite filter_app. cbn. now rewrite app_nil_r.
Qed.

End Properties.

(* ===================================================================== *)
(** ** Lemmas on the decimal display *)
(* ===================================================================== *)








(* ===================================================================== *)
(** ** The theorems at concrete inputs *)
(* ===================================================================== *)





(** A 404 answer gives [None] and two lines on the error stream. *)
Lemma get_departures_transport_failure_witness :
  get_departures not_found 4300 "PLZA" "s" JNull false initial
  = (Ok None,
     {| network := tt;
        trace :=
          [ etd_request "PLZA" "s";
            Stderr (Text "[!] Error: could not complete the request.");
            Stderr (Exc (HTTPError 404 bartURL)) ] |}).
Proof.
  apply (get_departures_transport_failure not_found 4300 "PLZA" "s" false
           initial
           (Ok {| status_code := 404; url := bartURL;
                  json_body := Raise ValueError |})
           tt (HTTPError 404 bartURL)).
  - reflexivity.
  - apply (error_status {| status_code := 404; url := bartURL;
                           json_body := Raise ValueError |}).
    simpl. lia.
Defined.

(** C3, as stated, fails: 304 is no success status, yet the answer passes
    [raise_for_status]; its body is read, the list is returned and nothing
    is written on the error stream. *)
Lemma get_departures_not_modified :
  (exists r,
      not_modified bartURL (reqParams "PLZA" "s") tt = (Ok r, tt)
      /\ status_code r = 304)
  /\ get_departures not_modified 4300 "PLZA" "s" JNull false initial
     = (Ok (Some [3; 7; 0]),
        {| network := tt; trace := [etd_request "PLZA" "s"] |})
  /\ returned not_modified 4300 "PLZA" "s" JNull false initial <> Ok None.
Proof.
  split; [|split].
  - eexists. split; reflexivity.
  - reflexivity.
  - discriminate.
Qed.

(** The fixture of the specification, fetched twice. *)
Lemma get_departures_fixture_idempotent_witness :
  let first :=
    get_departures offline 4300 "PLZA" "s" two_group_fixture false initial in
  let second :=
    get_departures offline 4300 "PLZA" "s" two_group_fixture false (snd first) in
  fst second = fst first
  /\ network (snd second) = network initial
  /\ forall st',
      returned offline 4300 "PLZA" "s" two_group_fixture false st' = fst first.
Proof.
  apply (get_departures_fixture_idempotent offline 4300 "PLZA" "s" false
           initial two_group_fixture).
  reflexivity.
Defined.

(** The fixture of the specification is a list, and no request is sent. *)
Lemma get_departures_fixture_never_none_witness :
  (forall r,
      returned offline 4300 "PLZA" "s" two_group_fixture false initial = Ok r ->
      exists minutesList, r = Some minutesList)
  /\ (forall e,
        returned offline 4300 "PLZA" "s" two_group_fixture false initial
        = Raise e ->
        is_RequestException e = false)
  /\ filter is_Get
       (trace (after offline 4300 "PLZA" "s" two_group_fixture false initial))
     = filter is_Get (trace initial).
Proof.
  apply (get_departures_fixture_never_none offline 4300 "PLZA" "s" false
           initial two_group_fixture).
  reflexivity.
Defined.



(** C5: the code lets an exception through where the claim, and the
    docstring ([None] if an error occurs), promise a list or [None].  A
    group without "estimate" and an entry without "minutes" raise
    [KeyError], a null "minutes" raises [TypeError]. *)
Lemma get_departures_malformed_raises :
  returned offline 4300 "PLZA" "s" group_without_estimate false initial
  = Raise (KeyError (KStr "estimate"))
  /\ returned offline 4300 "PLZA" "s" entry_without_minutes false initial
     = Raise (KeyError (KStr "minutes"))
  /\ returned offline 4300 "PLZA" "s" null_minutes false initial
     = Raise TypeError
  /\ ~ (forall doc,
         is_None doc = false ->
         exists r, returned offline 4300 "PLZA" "s" doc false initial = Ok r).
Proof.
  repeat split; try reflexivity.
  intros H. destruct (H null_minutes eq_refl) as [r Hr]. discriminate Hr.
Qed.

(* ===================================================================== *)
(** ** More on [get_departures] *)
(* ===================================================================== *)

Lemma passes_false r :
  passes r = false ->
  raise_for_status r = Raise (HTTPError (status_code r) (url r)).
Proof.
  unfold passes, raise_for_status.
  destruct ((400 <=? status_code r) && (status_code r <? 600));
    [reflexivity | discriminate].
Qed.

Lemma passes_true r : passes r = true -> raise_for_status r = Ok tt.
Proof.
  unfold passes, raise_for_status.
  destruct ((400 <=? status_code r) && (status_code r <? 600));
    [discriminate | reflexivity].
Qed.

Lemma passes_status r :
  passes r = false <-> 400 <= status_code r < 600.
Proof.
  unfold passes. rewrite negb_false_iff, andb_true_iff, Z.leb_le, Z.ltb_lt.
  reflexivity.
Qed.

Section Live.

Context {World : Type}.
Variable requests_get :
  string -> list (string * string) -> World -> result response * World.
Variable limit : nat.

(** The call without a test case, when the request itself raises. *)
Lemma live_request_raises origin direction verbose (st : state World) e w :
  requests_get bartURL (reqParams origin direction) (network st)
  = (Raise e, w) ->
  get_departures requests_get limit origin direction JNull verbose st
  = if is_RequestException e
    then (Ok None,
          {| network := w;
             trace := (trace st ++ etd_request origin direction
                                   :: failure_report e)%list |})
    else (Raise e,
          {| network := w;
             trace := (trace st ++ [etd_request origin direction])%list |}).
Proof.
  intros Hnet. unfold_fetch. cbn [is_None]. rewrite Hnet. cbn.
  destruct (is_RequestException e); cbn; [|reflexivity].
  now rewrite <- !app_assoc.
Qed.

(** ... when the answer has an error status. *)
Lemma live_error_status origin direction verbose (st : state World) r w :
  requests_get bartURL (reqParams origin direction) (network st)
  = (Ok r, w) ->
  passes r = false ->
  get_departures requests_get limit origin direction JNull verbose st
  = (Ok None,
     {| network := w;
        trace := (trace st ++ etd_request origin direction
                  :: failure_report (HTTPError (status_code r) (url r)))%list |}).
Proof.
  intros Hnet Hr. unfold_fetch. cbn [is_None]. rewrite Hnet.
  rewrite (passes_false _ Hr). cbn. now rewrite <- !app_assoc.
Qed.

(** ... and when the answer passes: the body decides. *)
Lemma live_body origin direction verbose (st : state World) r w :
  requests_get bartURL (reqParams origin direction) (network st)
  = (Ok r, w) ->
  passes r = true ->
  get_departures requests_get limit origin direction JNull verbose st
  = let sent :=
      (trace st ++ etd_request origin direction
       :: (if verbose then [Stdout (Text (url r))] else []))%list in
    match json_body r with
    | Raise e =>
        if is_RequestException e
        then (Ok None,
              {| network := w; trace := (sent ++ failure_report e)%list |})
        else (Raise e, {| network := w; trace := sent |})
    | Ok resp =>
        if verbose && negb (dumpable limit resp)
        then (Raise ValueError, {| network := w; trace := sent |})
        else
          (match extract_minutes limit resp with
           | Ok minutesList => Ok (Some minutesList)
           | Raise e => Raise e
           end,
           {| network := w;
              trace := (sent ++ if verbose then [Stdout (Dump resp)]
                                else [])%list |})
    end.
Proof.
  intros Hnet Hr. unfold_fetch. cbn [is_None]. rewrite Hnet.
  rewrite (passes_true _ Hr). cbn.
  destruct verbose; cbn;
    (destruct (json_body r) as [resp|e]; cbn;
     [ try (destruct (dumpable limit resp); cbn);
       try (destruct (extract_minutes limit resp) as [l|e] eqn:E; cbn;
            [ | rewrite (local_exn_not_request _
                           (extract_minutes_raises _ _ _ E)) ])
     | destruct (is_RequestException e); cbn ]);
    rewrite <- ?app_assoc; cbn; rewrite ?app_nil_r; reflexivity.
Qed.

End Live.



Section Visits.

Variable limit : nat.






End Visits.


Section ExceptionClasses.

Variable limit : nat.




End ExceptionClasses.

Section FetcherFacts.

Context {World : Type}.
Variable requests_get :
  string -> list (string * string) -> World -> result response * World.
Variable limit : nat.

(** X1.  An answer that passes [raise_for_status] and whose body is the
    document [doc] gives the value (or the exception) that the call with
    [doc] as test case and the same [verbose] gives, whatever the origin,
    the direction and the state of that call. *)
Theorem get_departures_live_as_fixture
  origin direction verbose (st : state World) r w doc
  origin' direction' (st' : state World) :
  requests_get bartURL (reqParams origin direction) (network st) = (Ok r, w) ->
  passes r = true ->
  json_body r = Ok doc ->
  is_None doc = false ->
  returned requests_get limit origin direction JNull verbose st
  = returned requests_get limit origin' direction' doc verbose st'.
Proof.
  intros Hnet Hr Hbody Hdoc.
  rewrite (value_of_fixture_any requests_get limit origin' direction' doc
             verbose st' Hdoc).
  unfold returned. rewrite (live_body _ _ _ _ _ _ _ _ Hnet Hr).
  cbv zeta. rewrite Hbody.
  now destruct (verbose && negb (dumpable limit doc)).
Qed.

(** X2.  Without a test case the call returns [None] exactly when the
    request fails at the transport level or the body of a passing answer
    fails to decode with a transport exception. *)
Theorem get_departures_none_iff
  origin direction verbose (st : state World) answer w :
  requests_get bartURL (reqParams origin direction) (network st)
  = (answer, w) ->
  returned requests_get limit origin direction JNull verbose st = Ok None
  <-> (exists ex, transport_failure answer ex)
      \/ (exists r e,
             answer = Ok r /\ passes r = true
             /\ json_body r = Raise e /\ is_RequestException e = true).
Proof.
  intros Hnet. unfold returned. destruct answer as [r|e].
  - destruct (passes r) eqn:Hr.
    + rewrite (live_body _ _ _ _ _ _ _ _ Hnet Hr). cbv zeta.
      destruct (json_body r) as [resp|e] eqn:Hb.
      * split.
        -- destruct (verbose && negb (dumpable limit resp)); cbn;
             [discriminate|].
           destruct (extract_minutes limit resp); discriminate.
        -- intros [[ex Hf]|(r' & e & [= <-] & _ & He & _)].
           ++ inversion Hf; subst.
              assert (passes r = false) by now apply passes_status.
              congruence.
           ++ rewrite Hb in He. discriminate.
      * destruct (is_RequestException e) eqn:He; cbn.
        -- split; [|reflexivity]. intros _. right. exists r, e. auto.
        -- split; [discriminate|].
           intros [[ex Hf]|(r' & e' & [= <-] & _ & He' & Hq)].
           ++ inversion Hf; subst.
              assert (passes r = false) by now apply passes_status.
              congruence.
           ++ rewrite Hb in He'. injection He' as <-. congruence.
    + rewrite (live_error_status _ _ _ _ _ _ _ _ Hnet Hr). cbn.
      split; [|reflexivity]. intros _. left. eexists.
      apply error_status. now apply passes_status.
  - rewrite (live_request_raises _ _ _ _ _ _ _ _ Hnet).
    destruct (is_RequestException e) eqn:He; cbn.
    + split; [|reflexivity]. intros _. left. exists e.
      now apply request_raises.
    + split; [discriminate|].
      intros [[ex Hf]|(r & e' & [=] & _)].
      inversion Hf; subst. congruence.
Qed.

(** X3.  With [verbose] unset nothing is written on standard output; with
    a test case nothing is written on the error stream, and with both the
    call leaves the state as it was, also when it raises. *)
Theorem get_departures_quiet origin direction (st : state World) :
  (forall testcase,
      filter is_Stdout
        (trace (after requests_get limit origin direction testcase false st))
      = filter is_Stdout (trace st))
  /\ (forall doc,
        is_None doc = false ->
        after requests_get limit origin direction doc false st = st
        /\ forall verbose,
            filter is_Stderr
              (trace (after requests_get limit origin direction doc verbose st))
            = filter is_Stderr (trace st)).
Proof.
  split.
  - intros testcase. unfold after. destruct (is_None testcase) eqn:Hdoc.
    + destruct testcase; try discriminate.
      destruct (requests_get bartURL (reqParams origin direction) (network st))
        as [[r|e] w] eqn:Hnet.
      * destruct (passes r) eqn:Hr.
        -- rewrite (live_body _ _ _ _ _ _ _ _ Hnet Hr). cbv zeta.
           destruct (json_body r) as [resp|e];
             [|destruct (is_RequestException e)];
             cbn; rewrite ?filter_app; cbn; now rewrite ?app_nil_r.
        -- rewrite (live_error_status _ _ _ _ _ _ _ _ Hnet Hr).
           cbn. rewrite filter_app. cbn. now rewrite app_nil_r.
      * rewrite (live_request_raises _ _ _ _ _ _ _ _ Hnet).
        destruct (is_RequestException e); cbn; rewrite filter_app; cbn;
          now rewrite app_nil_r.
    + rewrite get_departures_fixture by exact Hdoc. reflexivity.
  - intros doc Hdoc. unfold after. split.
    + rewrite get_departures_fixture by exact Hdoc. now destruct st.
    + intros verbose. rewrite get_departures_fixture by exact Hdoc.
      destruct verbose; cbn; [|reflexivity].
      destruct (dumpable limit doc); cbn; [|reflexivity].
      rewrite filter_app. cbn. now rewrite app_nil_r.
Qed.





End FetcherFacts.

(* ===================================================================== *)
(** ** Lemmas on [sorted] *)
(* ===================================================================== *)

Lemma ascii_compare_trans a b c :
  Ascii.compare a b <> Gt -> Ascii.compare b c <> Gt ->
  Ascii.compare a c <> Gt
  /\ (Ascii.compare a c = Eq ->
      Ascii.compare a b = Eq /\ Ascii.compare b c = Eq).
Proof.
  unfold Ascii.compare.
  generalize (N_of_ascii a) (N_of_ascii b) (N_of_ascii c). intros x y z.
  rewrite !N.compare_gt_iff, !N.compare_eq_iff. intros H1 H2.
  split; [lia|]. intros ->. split; lia.
Qed.

Lemma string_compare_trans s1 :
  forall s2 s3,
    String.compare s1 s2 <> Gt -> String.compare s2 s3 <> Gt ->
    String.compare s1 s3 <> Gt.
Proof.
  induction s1 as [|a s1 IH]; intros [|b s2] [|c s3]; simpl;
    try congruence.
  intros H1 H2.
  destruct (Ascii.compare a b) eqn:Eab; try congruence;
    destruct (Ascii.compare b c) eqn:Ebc; try congruence;
    (assert (Hab : Ascii.compare a b <> Gt) by congruence);
    (assert (Hbc : Ascii.compare b c <> Gt) by congruence);
    destruct (ascii_compare_trans a b c Hab Hbc) as [Hac Heq];
    destruct (Ascii.compare a c) eqn:Eac; try congruence;
    try (destruct (Heq eq_refl); congruence).
  now apply (IH s2 s3).
Qed.

Lemma leb_trans s1 s2 s3 :
  String.leb s1 s2 = true -> String.leb s2 s3 = true ->
  String.leb s1 s3 = true.
Proof.
  unfold String.leb. intros H1 H2.
  pose proof (string_compare_trans s1 s2 s3) as T.
  destruct (String.compare s1 s2); try discriminate;
    destruct (String.compare s2 s3); try discriminate;
    destruct (String.compare s1 s3); try reflexivity;
    exfalso; apply T; congruence.
Qed.

Lemma insert_sorted_perm x l : Permutation (insert_sorted x l) (x :: l).
Proof.
  induction l as [|y l IH]; simpl.
  - apply Permutation_refl.
  - destruct (String.leb x y).
    + apply Permutation_refl.
    + apply perm_trans with (y :: x :: l).
      * now apply perm_skip.
      * apply perm_swap.
Qed.

Lemma sorted_perm l : Permutation (sorted l) l.
Proof.
  induction l as [|x l IH]; simpl.
  - apply perm_nil.
  - apply perm_trans with (x :: sorted l).
    + apply insert_sorted_perm.
    + now apply perm_skip.
Qed.

Lemma insert_sorted_ascending x l :
  ascending l -> ascending (insert_sorted x l).
Proof.
  unfold ascending. induction l as [|y l IH]; simpl; intros H.
  - constructor; constructor.
  - inversion H as [|? ? Hl Hy]; subst.
    destruct (String.leb x y) eqn:E.
    + constructor; [exact H|]. constructor; [exact E|].
      revert Hy. apply Forall_impl. intros z. now apply leb_trans.
    + constructor; [now apply IH|].
      apply (Permutation_Forall (Permutation_sym (insert_sorted_perm x l))).
      constructor; [|exact Hy].
      destruct (String.leb_total x y) as [T|T]; congruence.
Qed.

Lemma sorted_ascending l : ascending (sorted l).
Proof.
  induction l as [|x l IH]; simpl.
  - constructor.
  - now apply insert_sorted_ascending.
Qed.

Lemma ascending_unique l1 :
  forall l2, ascending l1 -> ascending l2 -> Permutation l1 l2 -> l1 = l2.
Proof.
  unfold ascending.
  induction l1 as [|a l1 IH]; intros l2 H1 H2 P.
  - now rewrite (Permutation_nil P).
  - destruct l2 as [|b l2].
    + symmetry in P. now apply Permutation_nil in P.
    + inversion H1 as [|? ? H1l H1a]; inversion H2 as [|? ? H2l H2b]; subst.
      assert (Hab : a = b).
      { assert (Ia : In a (b :: l2))
          by (apply (Permutation_in _ P); now left).
        assert (Ib : In b (a :: l1))
          by (apply (Permutation_in _ (Permutation_sym P)); now left).
        destruct Ia as [->|Ia]; [reflexivity|].
        destruct Ib as [->|Ib]; [reflexivity|].
        rewrite Forall_forall in H1a, H2b.
        apply String.leb_antisym; auto. }
      subst b. f_equal. apply IH; try assumption.
      now apply Permutation_cons_inv with a.
Qed.

(** [sorted] does not depend on the order of its argument. *)
Lemma sorted_of_permutation l1 l2 :
  Permutation l1 l2 -> sorted l1 = sorted l2.
Proof.
  intros P. apply ascending_unique; try apply sorted_ascending.
  apply perm_trans with l1; [apply sorted_perm|].
  apply perm_trans with l2; [exact P|].
  apply Permutation_sym, sorted_perm.
Qed.

(* ===================================================================== *)
(** ** The script *)
(* ===================================================================== *)

(** Unfold a step of the script down to the calls of the fetcher. *)
Ltac unfold_script :=
  unfold run_test, print_value, print_line, call, step, sbind, sret, emit.

Section ScriptFacts.

Context {World : Type}.
Variable requests_get :
  string -> list (string * string) -> World -> result response * World.
Variable limit : nat.
Variable open_file : string -> outcome (outcome json).

(** A file that cannot be opened: nothing is printed. *)
Lemma run_test_unopened fname f (st : state World) :
  open_file fname = Failed f ->
  run_test requests_get limit open_file fname st = (Failed f, st).
Proof. intros H. unfold_script. now rewrite H. Qed.

(** A file that is not JSON: its name is printed, no more. *)
Lemma run_test_unloaded fname f (st : state World) :
  open_file fname = Done (Failed f) ->
  run_test requests_get limit open_file fname st
  = (Failed f,
     {| network := network st;
        trace := (trace st ++ [Stdout (Text fname)])%list |}).
Proof. intros H. unfold_script. now rewrite H. Qed.

(** A file with a document other than null. *)
Lemma run_test_document fname doc (st : state World) :
  open_file fname = Done (Done doc) ->
  is_None doc = false ->
  run_test requests_get limit open_file fname st
  = match extract_minutes limit doc with
    | Raise e =>
        (Failed (Raised e),
         {| network := network st;
            trace := (trace st ++ [Stdout (Text fname)])%list |})
    | Ok l =>
        if printable limit l
        then (Done tt,
              {| network := network st;
                 trace := (trace st ++
                           [ Stdout (Text fname);
                             Stdout (Text (str_of_list l));
                             Stdout (Text "-----") ])%list |})
        else (Failed (Raised ValueError),
              {| network := network st;
                 trace := (trace st ++ [Stdout (Text fname)])%list |})
    end.
Proof.
  intros H Hdoc. unfold_script. rewrite H. cbn.
  rewrite get_departures_fixture by exact Hdoc. cbn.
  destruct (extract_minutes limit doc) as [l|e]; [|reflexivity].
  unfold py_str. destruct (printable limit l); [|reflexivity].
  cbn. now rewrite <- !app_assoc.
Qed.

(** The loop stops at the first file that fails. *)
Lemma run_tests_app before rest (st : state World) :
  run_tests requests_get limit open_file (before ++ rest) st
  = match run_tests requests_get limit open_file before st with
    | (Done _, st1) => run_tests requests_get limit open_file rest st1
    | (Failed f, st1) => (Failed f, st1)
    end.
Proof.
  revert st. induction before as [|fname before IH]; intros st.
  - reflexivity.
  - cbn [app run_tests]. unfold sbind.
    destruct (run_test requests_get limit open_file fname st) as [[[]|f] st1];
      [apply IH | reflexivity].
Qed.

End ScriptFacts.

Section ScriptProperties.

Context {World : Type}.
Variable requests_get :
  string -> list (string * string) -> World -> result response * World.
Variable limit : nat.
Variable open_file : string -> outcome (outcome json).

Lemma run_test_offline fname (st : state World) :
  (forall doc, open_file fname = Done (Done doc) -> is_None doc = false) ->
  network (snd (run_test requests_get limit open_file fname st)) = network st
  /\ filter (fun ev => negb (is_Stdout ev))
       (trace (snd (run_test requests_get limit open_file fname st)))
     = filter (fun ev => negb (is_Stdout ev)) (trace st).
Proof.
  intros Hdoc. destruct (open_file fname) as [[doc|f]|f] eqn:Hopen.
  - rewrite (run_test_document _ _ _ _ _ _ Hopen (Hdoc doc eq_refl)).
    destruct (extract_minutes limit doc) as [l|e];
      [destruct (printable limit l)|];
      cbn; rewrite filter_app; cbn; now rewrite app_nil_r.
  - rewrite (run_test_unloaded _ _ _ _ _ _ Hopen). cbn.
    rewrite filter_app. cbn. now rewrite app_nil_r.
  - rewrite (run_test_unopened _ _ _ _ _ _ Hopen). auto.
Qed.

Lemma run_tests_offline files :
  (forall fname doc,
      In fname files -> open_file fname = Done (Done doc) ->
      is_None doc = false) ->
  forall st : state World,
    network (snd (run_tests requests_get limit open_file files st)) = network st
    /\ filter (fun ev => negb (is_Stdout ev))
         (trace (snd (run_tests requests_get limit open_file files st)))
       = filter (fun ev => negb (is_Stdout ev)) (trace st).
Proof.
  induction files as [|fname files IH]; intros Hfiles st.
  - cbn. auto.
  - cbn [run_tests]. unfold sbind.
    destruct (run_test_offline fname st) as [Hn Ht].
    { intros doc. apply Hfiles. now left. }
    destruct (run_test requests_get limit open_file fname st) as [[[]|f] st1].
    + cbn [snd] in Hn, Ht.
      destruct (IH (fun f d Hin => Hfiles f d (or_intror Hin)) st1) as [Hn' Ht'].
      split; congruence.
    + auto.
Qed.

Lemma run_test_report fname doc minutes (st : state World) :
  open_file fname = Done (Done doc) ->
  document_minutes doc = Some minutes ->
  printable limit (map (minutes_value limit) (List.concat minutes)) = true ->
  run_test requests_get limit open_file fname st
  = (Done tt,
     {| network := network st;
        trace := (trace st ++ report limit fname minutes)%list |}).
Proof.
  intros Hopen Hdoc Hp.
  rewrite (run_test_document _ _ _ _ _ _ Hopen (well_formed_supplied _ _ Hdoc)).
  rewrite (extract_minutes_well_formed _ _ _ Hdoc), Hp. reflexivity.
Qed.

Lemma run_tests_report (expected : string -> list (list string)) files :
  (forall fname,
      In fname files ->
      exists doc,
        open_file fname = Done (Done doc)
        /\ document_minutes doc = Some (expected fname)
        /\ printable limit
             (map (minutes_value limit) (List.concat (expected fname))) = true) ->
  forall st : state World,
    run_tests requests_get limit open_file files st
    = (Done tt,
       {| network := network st;
          trace := (trace st ++
                    flat_map (fun fname => report limit fname (expected fname))
                      files)%list |}).
Proof.
  induction files as [|fname files IH]; intros Hfiles st.
  - cbn. rewrite app_nil_r. now destruct st.
  - cbn [run_tests flat_map]. unfold sbind.
    destruct (Hfiles fname (or_introl eq_refl)) as (doc & Ho & Hd & Hp).
    rewrite (run_test_report _ _ _ _ Ho Hd Hp).
    rewrite (IH (fun f Hin => Hfiles f (or_intror Hin))).
    cbn [network trace]. now rewrite <- app_assoc.
Qed.

(** X6.  [do_tests] runs the files in the ascending order of their names,
    whatever the order in which the directory lists them: two listings of
    the same files give the same run. *)
Theorem do_tests_listing_order
  (glob1 glob2 : string -> list string) (st : state World) :
  Permutation (glob1 "./test*.json") (glob2 "./test*.json") ->
  do_tests requests_get limit glob1 open_file st
  = do_tests requests_get limit glob2 open_file st.
Proof.
  intros P. unfold do_tests. cbv zeta.
  now rewrite (sorted_of_permutation _ _ P).
Qed.

(** X7.  When no test file holds the document null, [do_tests] sends no
    request and writes nothing on the error stream: it leaves the network
    as it was and adds standard-output lines only. *)
Theorem do_tests_offline (glob_glob : string -> list string) (st : state World) :
  (forall fname doc,
      In fname (glob_glob "./test*.json") ->
      open_file fname = Done (Done doc) ->
      is_None doc = false) ->
  network (snd (do_tests requests_get limit glob_glob open_file st))
  = network st
  /\ filter (fun ev => negb (is_Stdout ev))
       (trace (snd (do_tests requests_get limit glob_glob open_file st)))
     = filter (fun ev => negb (is_Stdout ev)) (trace st).
Proof.
  intros H. unfold do_tests. cbv zeta. apply run_tests_offline.
  intros fname doc Hin. apply H.
  exact (Permutation_in _ (sorted_perm _) Hin).
Qed.

(** X8.  A test file that holds the document null is no test case: its
    run sends the live request for PLZA, direction s. *)
Theorem run_test_null_goes_live fname (st : state World) :
  open_file fname = Done (Done JNull) ->
  filter is_Get (trace (snd (run_test requests_get limit open_file fname st)))
  = (filter is_Get (trace st) ++
     [ Get "http://api.bart.gov/api/etd.aspx"
           [ ("cmd", "etd"); ("orig", "PLZA"); ("dir", "s");
             ("key", "MW9S-E7SL-26DU-VV8V"); ("json", "y") ] ])%list.
Proof.
  intros Hopen. unfold_script. rewrite Hopen. cbn.
  remember {| network := network st;
              trace := (trace st ++ [Stdout (Text fname)])%list |}
    as st1 eqn:Hst1.
  assert (T1 : filter is_Get (trace st1) = filter is_Get (trace st)).
  { rewrite Hst1. cbn. rewrite filter_app. cbn. now rewrite app_nil_r. }
  clear Hst1.
  destruct (requests_get bartURL (reqParams "PLZA" "s") (network st1))
    as [[r|e] w] eqn:Hnet.
  - destruct (passes r) eqn:Hr.
    + rewrite (live_body _ _ _ _ _ _ _ _ Hnet Hr). cbv zeta.
      destruct (json_body r) as [resp|e];
        [ cbn [andb];
          destruct (extract_minutes limit resp) as [l|e];
          [ cbn; try unfold py_str; destruct (printable limit l) | ]
        | destruct (is_RequestException e) ];
        cbn; rewrite ?filter_app, ?T1; cbn; rewrite ?app_nil_r; reflexivity.
    + rewrite (live_error_status _ _ _ _ _ _ _ _ Hnet Hr). cbn.
      rewrite !filter_app, T1. cbn. rewrite ?app_nil_r. reflexivity.
  - rewrite (live_request_raises _ _ _ _ _ _ _ _ Hnet).
    destruct (is_RequestException e); cbn;
      rewrite ?filter_app, ?T1; cbn; rewrite ?app_nil_r; reflexivity.
Qed.

(** X9.  [do_tests] stops at the first file that fails to open or to
    load: the files after it in name order are not run.  Nothing is printed
    for a file that cannot be opened; the name alone is printed for a file
    that is not JSON. *)
Theorem do_tests_stops_at_bad_file
  (glob_glob : string -> list string) before fname rest (st st1 : state World) :
  sorted (glob_glob "./test*.json") = (before ++ fname :: rest)%list ->
  run_tests requests_get limit open_file before st = (Done tt, st1) ->
  (forall f,
      open_file fname = Failed f ->
      do_tests requests_get limit glob_glob open_file st = (Failed f, st1))
  /\ (forall f,
        open_file fname = Done (Failed f) ->
        do_tests requests_get limit glob_glob open_file st
        = (Failed f,
           {| network := network st1;
              trace := (trace st1 ++ [Stdout (Text fname)])%list |})).
Proof.
  intros Hs Hb. unfold do_tests. cbv zeta. rewrite Hs, run_tests_app, Hb.
  cbn [run_tests]. unfold sbind. split; intros f Hf.
  - now rewrite (run_test_unopened _ _ _ _ _ _ Hf).
  - now rewrite (run_test_unloaded _ _ _ _ _ _ Hf).
Qed.

(** X10.  When every test file holds a well-formed document (and its
    integers can be printed), [do_tests] ends normally and prints, for each
    file in name order, three lines: the name, the list, and "-----". *)
Theorem do_tests_report
  (glob_glob : string -> list string) (expected : string -> list (list string))
  (st : state World) :
  (forall fname,
      In fname (glob_glob "./test*.json") ->
      exists doc,
        open_file fname = Done (Done doc)
        /\ document_minutes doc = Some (expected fname)
        /\ printable limit
             (map (minutes_value limit) (List.concat (expected fname))) = true) ->
  do_tests requests_get limit glob_glob open_file st
  = (Done tt,
     {| network := network st;
        trace := (trace st ++
                  flat_map (fun fname => report limit fname (expected fname))
                    (sorted (glob_glob "./test*.json")))%list |}).
Proof.
  intros H. unfold do_tests. cbv zeta. apply run_tests_report.
  intros fname Hin. apply H.
  exact (Permutation_in _ (sorted_perm _) Hin).
Qed.

End ScriptProperties.

Section MainProperties.

Context {World : Type}.
Variable requests_get :
  string -> list (string * string) -> World -> result response * World.
Variable limit : nat.
Variable glob_glob : string -> list string.
Variable open_file : string -> outcome (outcome json).

(** Outside the testing mode the main block is one call of the fetcher
    and the print of its list. *)
Lemma main_query argv (st : state World) :
  origin_of argv <> "testing" ->
  main requests_get limit glob_glob open_file argv st
  = sbind World
      (call World
         (get_departures requests_get limit (origin_of argv) "s" JNull false))
      (fun dep_list =>
         match dep_list with
         | Some _ => print_value World limit dep_list
         | None => sret World tt
         end)
      st.
Proof.
  intros H. unfold main.
  destruct argv as [|prog [|org rest]]; try reflexivity.
  cbn [origin_of] in *. apply String.eqb_neq in H. now rewrite H.
Qed.

(** X11.  The main block, outside the testing mode, sends one request:
    for the station of the first argument, or PLZA without an argument,
    always in direction s. *)
Theorem main_request argv (st : state World) :
  origin_of argv <> "testing" ->
  filter is_Get
    (trace (snd (main requests_get limit glob_glob open_file argv st)))
  = (filter is_Get (trace st) ++
     [ Get "http://api.bart.gov/api/etd.aspx"
           [ ("cmd", "etd"); ("orig", origin_of argv); ("dir", "s");
             ("key", "MW9S-E7SL-26DU-VV8V"); ("json", "y") ] ])%list.
Proof.
  intros H. rewrite (main_query _ _ H).
  unfold print_value, print_line, call, step, sbind, sret, emit.
  destruct (requests_get bartURL (reqParams (origin_of argv) "s") (network st))
    as [[r|e] w] eqn:Hnet.
  - destruct (passes r) eqn:Hr.
    + rewrite (live_body _ _ _ _ _ _ _ _ Hnet Hr). cbv zeta.
      destruct (json_body r) as [resp|e];
        [ cbn [andb];
          destruct (extract_minutes limit resp) as [l|e];
          [ cbn; try unfold py_str; destruct (printable limit l) | ]
        | destruct (is_RequestException e) ];
        cbn; rewrite ?filter_app; cbn; rewrite ?app_nil_r; reflexivity.
    + rewrite (live_error_status _ _ _ _ _ _ _ _ Hnet Hr). cbn.
      rewrite !filter_app. cbn. rewrite ?app_nil_r. reflexivity.
  - rewrite (live_request_raises _ _ _ _ _ _ _ _ Hnet).
    destruct (is_RequestException e); cbn;
      rewrite ?filter_app; cbn; rewrite ?app_nil_r; reflexivity.
Qed.

(** X12.  When the request fails at the transport level the main block
    ends normally: the two lines of the handler on the error stream,
    nothing on standard output. *)
Theorem main_silent_on_failure argv (st : state World) answer w ex :
  origin_of argv <> "testing" ->
  requests_get bartURL (reqParams (origin_of argv) "s") (network st)
  = (answer, w) ->
  transport_failure answer ex ->
  main requests_get limit glob_glob open_file argv st
  = (Done tt,
     {| network := w;
        trace := (trace st ++ etd_request (origin_of argv) "s"
                  :: failure_report ex)%list |}).
Proof.
  intros H Hnet Hf. rewrite (main_query _ _ H). unfold call, sbind, sret.
  inversion Hf as [e He|r Hr]; subst.
  - rewrite (live_request_raises _ _ _ _ _ _ _ _ Hnet), He. reflexivity.
  - apply passes_status in Hr.
    now rewrite (live_error_status _ _ _ _ _ _ _ _ Hnet Hr).
Qed.

(** X13.  With "testing" for first argument the main block is [do_tests]
    and no more: no request for a station of that name, no line of its
    own. *)
Theorem main_testing prog rest (st : state World) :
  main requests_get limit glob_glob open_file (prog :: "testing" :: rest) st
  = do_tests requests_get limit glob_glob open_file st.
Proof.
  unfold main. cbn [String.eqb Ascii.eqb Bool.eqb]. unfold sbind, sret.
  destruct (do_tests requests_get limit glob_glob open_file st)
    as [[[]|f] st']; reflexivity.
Qed.

(** X14.  When the answer passes and its body is a well-formed document
    (whose integers can be printed), the main block prints the list, one
    line on standard output after the request, and ends normally. *)
Theorem main_prints_list argv (st : state World) r w doc minutes :
  origin_of argv <> "testing" ->
  requests_get bartURL (reqParams (origin_of argv) "s") (network st)
  = (Ok r, w) ->
  passes r = true ->
  json_body r = Ok doc ->
  document_minutes doc = Some minutes ->
  printable limit (map (minutes_value limit) (List.concat minutes)) = true ->
  main requests_get limit glob_glob open_file argv st
  = (Done tt,
     {| network := w;
        trace :=
          (trace st ++
           [ etd_request (origin_of argv) "s";
             Stdout (Text (str_of_list
                             (map (minutes_value limit)
                                (List.concat minutes)))) ])%list |}).
Proof.
  intros H Hnet Hr Hb Hd Hp. rewrite (main_query _ _ H).
  unfold print_value, print_line, call, step, sbind, sret, emit.
  rewrite (live_body _ _ _ _ _ _ _ _ Hnet Hr). cbv zeta.
  rewrite Hb. cbn [andb]. rewrite (extract_minutes_well_formed _ _ _ Hd).
  unfold py_str. cbv beta iota. rewrite Hp. cbn. now rewrite <- !app_assoc.
Qed.

End MainProperties.

(* ===================================================================== *)
(** ** These properties at concrete inputs *)
(* ===================================================================== *)

Lemma get_departures_live_as_fixture_witness :
  returned (serving two_group_fixture) 4300 "PLZA" "s" JNull true initial
  = returned (serving two_group_fixture) 4300 "RICH" "n" two_group_fixture
      true initial.
Proof.
  apply (get_departures_live_as_fixture (serving two_group_fixture) 4300
           "PLZA" "s" true initial
           {| status_code := 200; url := bartURL;
              json_body := Ok two_group_fixture |}
           tt two_group_fixture "RICH" "n" initial);
    reflexivity.
Defined.

Lemma get_departures_none_iff_witness :
  returned offline 4300 "PLZA" "s" JNull false initial = Ok None
  <-> (exists ex,
          transport_failure (Raise (RequestException "connection refused")) ex)
      \/ (exists r e,
             Raise (RequestException "connection refused") = Ok r
             /\ passes r = true
             /\ json_body r = Raise e /\ is_RequestException e = true).
Proof.
  apply (get_departures_none_iff offline 4300 "PLZA" "s" false initial
           (Raise (RequestException "connection refused")) tt).
  reflexivity.
Defined.

Lemma get_departures_quiet_witness :
  after offline 4300 "PLZA" "s" group_without_estimate false initial = initial
  /\ forall verbose,
      filter is_Stderr
        (trace (after offline 4300 "PLZA" "s" group_without_estimate verbose
                  initial))
      = filter is_Stderr (trace initial).
Proof.
  apply (proj2 (get_departures_quiet offline 4300 "PLZA" "s" initial)
           group_without_estimate).
  reflexivity.
Defined.





Lemma do_tests_listing_order_witness :
  do_tests offline 4300 two_tests two_tests_files initial
  = do_tests offline 4300 (fun _ => ["./test1.json"; "./test2.json"])
      two_tests_files initial.
Proof.
  apply (do_tests_listing_order offline 4300 two_tests_files two_tests
           (fun _ => ["./test1.json"; "./test2.json"]) initial).
  simpl. apply perm_swap.
Defined.

Lemma do_tests_offline_witness :
  network (snd (do_tests offline 4300 two_tests two_tests_files initial))
  = network initial
  /\ filter (fun ev => negb (is_Stdout ev))
       (trace (snd (do_tests offline 4300 two_tests two_tests_files initial)))
     = filter (fun ev => negb (is_Stdout ev)) (trace initial).
Proof.
  apply (do_tests_offline offline 4300 two_tests_files two_tests initial).
  intros fname doc [<-|[<-|[]]] H; vm_compute in H;
    injection H as <-; reflexivity.
Defined.

Lemma run_test_null_goes_live_witness :
  filter is_Get
    (trace (snd (run_test offline 4300 null_files "./test1.json" initial)))
  = (filter is_Get (trace initial) ++ [etd_request "PLZA" "s"])%list.
Proof.
  apply (run_test_null_goes_live offline 4300 null_files "./test1.json"
           initial).
  reflexivity.
Defined.

Lemma do_tests_stops_at_bad_file_witness :
  (forall f,
      broken_files "./test2.json" = Failed f ->
      do_tests offline 4300 two_tests broken_files initial
      = (Failed f,
         {| network := tt;
            trace := report 4300 "./test1.json" [["3"; "7"]; ["Leaving"]] |}))
  /\ (forall f,
        broken_files "./test2.json" = Done (Failed f) ->
        do_tests offline 4300 two_tests broken_files initial
        = (Failed f,
           {| network := tt;
              trace := (report 4300 "./test1.json" [["3"; "7"]; ["Leaving"]]
                        ++ [Stdout (Text "./test2.json")])%list |})).
Proof.
  apply (do_tests_stops_at_bad_file offline 4300 broken_files two_tests
           ["./test1.json"] "./test2.json" [] initial
           {| network := tt;
              trace := report 4300 "./test1.json" [["3"; "7"]; ["Leaving"]] |});
    reflexivity.
Defined.

Lemma do_tests_report_witness :
  do_tests offline 4300 two_tests two_tests_files initial
  = (Done tt,
     {| network := tt;
        trace :=
          [ Stdout (Text "./test1.json"); Stdout (Text "[3, 7, 0]");
            Stdout (Text "-----");
            Stdout (Text "./test2.json"); Stdout (Text "[12]");
            Stdout (Text "-----") ] |}).
Proof.
  apply (do_tests_report offline 4300 two_tests_files two_tests
           two_tests_minutes initial).
  intros fname [<-|[<-|[]]]; eexists; repeat split; reflexivity.
Defined.

Lemma main_request_witness :
  filter is_Get
    (trace (snd (main offline 4300 two_tests two_tests_files
                   ["departures.py"; "RICH"] initial)))
  = (filter is_Get (trace initial) ++ [etd_request "RICH" "s"])%list.
Proof.
  apply (main_request offline 4300 two_tests two_tests_files
           ["departures.py"; "RICH"] initial).
  simpl. discriminate.
Defined.

Lemma main_silent_on_failure_witness :
  main not_found 4300 two_tests two_tests_files ["departures.py"] initial
  = (Done tt,
     {| network := tt;
        trace := etd_request "PLZA" "s"
                 :: failure_report (HTTPError 404 bartURL) |}).
Proof.
  apply (main_silent_on_failure not_found 4300 two_tests two_tests_files
           ["departures.py"] initial
           (Ok {| status_code := 404; url := bartURL;
                  json_body := Raise ValueError |})
           tt (HTTPError 404 bartURL)).
  - simpl. discriminate.
  - reflexivity.
  - apply (error_status {| status_code := 404; url := bartURL;
                           json_body := Raise ValueError |}).
    simpl. lia.
Defined.

Lemma main_prints_list_witness :
  main (serving two_group_fixture) 4300 two_tests two_tests_files
    ["departures.py"] initial
  = (Done tt,
     {| network := tt;
        trace := [etd_request "PLZA" "s"; Stdout (Text "[3, 7, 0]")] |}).
Proof.
  apply (main_prints_list (serving two_group_fixture) 4300 two_tests
           two_tests_files ["departures.py"] initial
           {| status_code := 200; url := bartURL;
              json_body := Ok two_group_fixture |}
           tt two_group_fixture [["3"; "7"]; ["Leaving"]]);
    try reflexivity.
  simpl. discriminate.
Defined.
